(** * Quantitative pricing engine: valuation hierarchy, Black-Scholes pricing
      and portfolio analytics.

    Shallow embedding of [quantitative-pricing-engine.py].  Python floats are
    idealised as the real numbers of the Standard Library: the arithmetic
    operators keep the exceptions Python raises on them ([/] on a zero
    divisor, [math.log] and [math.sqrt] outside their domain), rounding and
    overflow are not modelled.  Where rounding, underflow and overflow decide
    what the code does, in the pricing branch of [theoretical_value_bs], a
    second embedding on IEEE 754 binary64 numbers (module [Double]) is the
    one the specification is settled on. *)

From Stdlib Require Import Reals Lra Lia List String Bool Factorial.
From Stdlib Require Import Permutation.
From Stdlib Require Floats.
Import ListNotations.

#[local] Open Scope R_scope.

(** ** The error function [math.erf]

    [erf x = 2/sqrt(pi) * sum_n (-1)^n x^(2n+1) / (n! (2n+1))], defined as
    the everywhere convergent power series in [x^2], times [x]. *)

Module Erf.

Definition erf_n (n : nat) : R :=
  (-1) ^ n / (INR (fact n) * INR (2 * n + 1)).

Definition erf_in (y l : R) : Prop :=
  infinite_sum (fun i : nat => erf_n i * y ^ i) l.

Lemma odd_index_pos (n : nat) : 0 < INR (2 * n + 1).
Proof. apply lt_0_INR; lia. Qed.

Lemma erf_n_neq_0 (n : nat) : erf_n n <> 0.
Proof.
  unfold erf_n, Rdiv.
  apply Rmult_integral_contrapositive_currified.
  - apply pow_nonzero; lra.
  - apply Rinv_neq_0_compat, Rmult_integral_contrapositive_currified.
    + apply INR_fact_neq_0.
    + pose proof (odd_index_pos n); lra.
Qed.

Lemma erf_n_ratio (n : nat) :
  erf_n (S n) / erf_n n = - (INR (2 * n + 1) / (INR (S n) * INR (2 * n + 3))).
Proof.
  unfold erf_n.
  replace (2 * S n + 1)%nat with (2 * n + 3)%nat by lia.
  rewrite fact_simpl, mult_INR.
  pose proof (odd_index_pos n) as H1.
  assert (H3 : 0 < INR (2 * n + 3)) by (apply lt_0_INR; lia).
  assert (HS : 0 < INR (S n)) by (apply lt_0_INR; lia).
  pose proof (INR_fact_neq_0 n) as Hf.
  assert (Hp : (-1) ^ n <> 0) by (apply pow_nonzero; lra).
  simpl pow.
  field; repeat split; lra.
Qed.

Lemma erf_n_ratio_bound (n : nat) :
  Rabs (erf_n (S n) / erf_n n) <= / INR (S n).
Proof.
  rewrite erf_n_ratio, Rabs_Ropp.
  pose proof (odd_index_pos n) as H1.
  assert (H3 : 0 < INR (2 * n + 3)) by (apply lt_0_INR; lia).
  assert (HS : 0 < INR (S n)) by (apply lt_0_INR; lia).
  assert (H13 : INR (2 * n + 1) <= INR (2 * n + 3)) by (apply le_INR; lia).
  rewrite Rabs_right.
  - apply Rmult_le_reg_r with (INR (S n) * INR (2 * n + 3)); [nra|].
    field_simplify; [|lra|lra]. lra.
  - apply Rle_ge, Rlt_le, Rdiv_lt_0_compat; nra.
Qed.

(** The ratio of consecutive coefficients tends to 0, so the series
    converges for every argument. *)
Lemma Alembert_erf : Un_cv (fun n : nat => Rabs (erf_n (S n) / erf_n n)) 0.
Proof.
  intros eps Heps.
  destruct (archimed_cor1 eps Heps) as [N [HN HNpos]].
  exists N; intros n Hn.
  unfold Rdist; rewrite Rminus_0_r, Rabs_Rabsolu.
  apply Rle_lt_trans with (/ INR (S n)); [apply erf_n_ratio_bound|].
  apply Rle_lt_trans with (/ INR N); [|exact HN].
  apply Rinv_le_contravar.
  - apply lt_0_INR; exact HNpos.
  - apply le_INR; lia.
Qed.

Lemma exist_erf (y : R) : { l : R | erf_in y l }.
Proof.
  exact (Alembert_C3 erf_n y erf_n_neq_0 Alembert_erf).
Defined.

Definition erf (x : R) : R :=
  2 / sqrt PI * (x * proj1_sig (exist_erf (x * x))).

(** [erf x] is [2/sqrt(pi) * x] times the sum of the series at [x^2]. *)
Lemma erf_series (x : R) :
  exists l : R, erf_in (x * x) l /\ erf x = 2 / sqrt PI * (x * l).
Proof.
  exists (proj1_sig (exist_erf (x * x))); split; [| reflexivity].
  exact (proj2_sig (exist_erf (x * x))).
Qed.

Lemma erf_odd (x : R) : erf (- x) = - erf x.
Proof.
  unfold erf. replace (- x * - x) with (x * x) by ring. ring.
Qed.

Lemma erf_0 : erf 0 = 0.
Proof. unfold erf. ring. Qed.

End Erf.

(** ** Python exceptions of the arithmetic used by the engine *)

Module Py.

Inductive Error : Set :=
| ZeroDivisionError
| ValueError.

(** A computation either raises or returns. *)
Inductive result (A : Type) : Type :=
| Raise (e : Error)
| Return (a : A).
Arguments Raise {A} e.
Arguments Return {A} a.

Definition bind {A B : Type} (m : result A) (k : A -> result B) : result B :=
  match m with
  | Raise e => Raise e
  | Return a => k a
  end.

(** [x / y] on floats: raises on a zero divisor. *)
Definition div (x y : R) : result R :=
  if Req_dec_T y 0 then Raise ZeroDivisionError else Return (x / y).

(** [math.log]: raises outside the positive reals. *)
Definition log (x : R) : result R :=
  if Rlt_dec 0 x then Return (ln x) else Raise ValueError.

(** [math.sqrt]: raises on a negative argument. *)
Definition sqrt (x : R) : result R :=
  if Rlt_dec x 0 then Raise ValueError else Return (R_sqrt.sqrt x).

(** [max(0, x)]: the builtin keeps its first argument unless a later one
    is strictly greater. *)
Definition max0 (x : R) : R :=
  if Rlt_dec 0 x then x else 0.

(** [sum(iterable)]: starts from 0 and adds the items from left to right. *)
Definition sum (xs : list R) : R :=
  fold_left Rplus xs 0.

End Py.

Notation "x <- m ;; k" := (Py.bind m (fun x => k))
  (at level 61, m at next level, right associativity).

(** ** 1. Asset hierarchy *)

(** Attributes every [Position] carries (set by [Position.__init__]). *)
Record PositionAttrs : Type := mkPositionAttrs {
  ticker : string;
  quantity : R;
  market_price : R
}.

Record Stock : Type := mkStock {
  stock_super : PositionAttrs;
  pays_dividends : bool
}.

Record Derivative : Type := mkDerivative {
  derivative_super : PositionAttrs;
  expiration_date : string;
  multiplier : R
}.

(** [Option] extends [Derivative]. *)
Record Option : Type := mkOption {
  option_super : Derivative;
  strike_price : R;
  option_type : string
}.

(** The concrete classes a portfolio can hold. *)
Inductive Position : Type :=
| AStock (s : Stock)
| ADerivative (d : Derivative)
| AnOption (o : Option).

(** Attribute access [p.ticker], [p.quantity], [p.market_price]. *)
Definition attrs (p : Position) : PositionAttrs :=
  match p with
  | AStock s => stock_super s
  | ADerivative d => derivative_super d
  | AnOption o => derivative_super (option_super o)
  end.

(** [Stock.calculate_current_value] *)
Definition Stock_calculate_current_value (self : Stock) : R :=
  quantity (stock_super self) * market_price (stock_super self).

(** [Derivative.calculate_current_value] *)
Definition Derivative_calculate_current_value (self : Derivative) : R :=
  quantity (derivative_super self) * market_price (derivative_super self)
  * multiplier self.

(** [Option] does not override the method: it inherits the derivative's. *)
Definition Option_calculate_current_value (self : Option) : R :=
  Derivative_calculate_current_value (option_super self).

(** Dynamic dispatch of [p.calculate_current_value()]. *)
Definition calculate_current_value (p : Position) : R :=
  match p with
  | AStock s => Stock_calculate_current_value s
  | ADerivative d => Derivative_calculate_current_value d
  | AnOption o => Option_calculate_current_value o
  end.

(** The local function [N] of [theoretical_value_bs]. *)
Definition N (x : R) : Py.result R :=
  s2 <- Py.sqrt 2 ;;
  q <- Py.div x s2 ;;
  Py.div (1 + Erf.erf q) 2.

(** [Option.theoretical_value_bs] *)
Definition theoretical_value_bs (self : Option)
    (risk_free_rate volatility time_to_maturity : R) : Py.result R :=
  let S := market_price (derivative_super (option_super self)) in
  let K := strike_price self in
  let r := risk_free_rate in
  let sigma := volatility in
  let T := time_to_maturity in
  if Rle_dec T 0 then
    Py.Return (if (option_type self =? "Call")%string
               then Py.max0 (S - K) else Py.max0 (K - S))
  else
    q <- Py.div S K ;;
    l <- Py.log q ;;
    sqT <- Py.sqrt T ;;
    d1 <- Py.div (l + (r + 0.5 * sigma ^ 2) * T) (sigma * sqT) ;;
    sqT' <- Py.sqrt T ;;
    let d2 := d1 - sigma * sqT' in
    theoretical_price <-
      (if (option_type self =? "Call")%string then
         n1 <- N d1 ;;
         n2 <- N d2 ;;
         Py.Return (S * n1 - K * exp (- r * T) * n2)
       else if (option_type self =? "Put")%string then
         n2 <- N (- d2) ;;
         n1 <- N (- d1) ;;
         Py.Return (K * exp (- r * T) * n2 - S * n1)
       else Py.Return 0) ;;
    Py.Return (theoretical_price * multiplier (option_super self)).

(** ** 2. Portfolio and client management *)

Record Portfolio : Type := mkPortfolio {
  positions : list Position
}.

(** [Portfolio()] *)
Definition Portfolio_init : Portfolio := mkPortfolio [].

(** [Portfolio.add_position]: [self.positions.append(position)]. *)
Definition add_position (self : Portfolio) (position : Position) : Portfolio :=
  mkPortfolio (positions self ++ [position]).

(** [Portfolio.total_valuation] *)
Definition total_valuation (self : Portfolio) : R :=
  Py.sum (map calculate_current_value (positions self)).

(** [Portfolio.average_market_price] *)
Definition average_market_price (self : Portfolio) : Py.result R :=
  match positions self with
  | [] => Py.Return 0
  | _ :: _ =>
      let total_price :=
        Py.sum (map (fun p => market_price (attrs p)) (positions self)) in
      Py.div total_price (INR (List.length (positions self)))
  end.

(** One iteration of the loop of [has_straddle_strategy] up to the early
    return: the two flags after looking at [p].  The match on [AnOption] is
    the test [isinstance(p, Option)]. *)
Definition straddle_flags (p : Position) (has_call has_put : bool)
  : bool * bool :=
  match p with
  | AnOption o =>
      let has_call :=
        if (option_type o =? "Call")%string then true else has_call in
      let has_put :=
        if (option_type o =? "Put")%string then true else has_put in
      (has_call, has_put)
  | _ => (has_call, has_put)
  end.

(** The [for] loop of [has_straddle_strategy] with its early return. *)
Fixpoint straddle_loop (ps : list Position) (has_call has_put : bool) : bool :=
  match ps with
  | [] => false
  | p :: rest =>
      let '(has_call, has_put) := straddle_flags p has_call has_put in
      if has_call && has_put then true
      else straddle_loop rest has_call has_put
  end.

(** [Portfolio.has_straddle_strategy] *)
Definition has_straddle_strategy (self : Portfolio) : bool :=
  straddle_loop (positions self) false false.

Record ClientAccount : Type := mkClientAccount {
  iban : string;
  cash_balance : R;
  portfolio : option Portfolio
}.

(** [ClientAccount(iban, cash_balance)]: no portfolio yet. *)
Definition ClientAccount_init (iban : string) (cash_balance : R)
  : ClientAccount :=
  mkClientAccount iban cash_balance None.

(** [ClientAccount.assign_portfolio] *)
Definition assign_portfolio (self : ClientAccount) (pf : Portfolio)
  : ClientAccount :=
  mkClientAccount (iban self) (cash_balance self) (Some pf).

(** [ClientAccount.calculate_net_worth]: a [Portfolio] object defines neither
    [__bool__] nor [__len__], so [if self.portfolio] tests for [None]. *)
Definition calculate_net_worth (self : ClientAccount) : R :=
  let total := cash_balance self in
  match portfolio self with
  | Some pf => total + total_valuation pf
  | None => total
  end.

(** ** Reference definitions

    What the engine is expected to compute, stated independently of the
    code; the theorems below compare the code with them. *)

Module BlackScholes.

(** Standard normal cumulative distribution function. *)
Definition Phi (x : R) : R :=
  (1 + Erf.erf (x / sqrt 2)) / 2.

End BlackScholes.

(** Sum of a list of reals, first element outermost. *)
Fixpoint sum_list (xs : list R) : R :=
  match xs with
  | [] => 0
  | x :: rest => x + sum_list rest
  end.

Definition arithmetic_mean (xs : list R) : R :=
  sum_list xs / INR (List.length xs).

(** The holdings of a portfolio that are options of a given type. *)
Definition holds_option_of_type (pf : Portfolio) (ty : string) : Prop :=
  exists o : Option, In (AnOption o) (positions pf) /\ option_type o = ty.

(** [self] with another contract multiplier, all other fields unchanged. *)
Definition with_multiplier (self : Option) (m : R) : Option :=
  mkOption
    (mkDerivative (derivative_super (option_super self))
                  (expiration_date (option_super self)) m)
    (strike_price self) (option_type self).

(** A position that is an option of type [ty]. *)
Definition is_option_of_type (ty : string) (p : Position) : bool :=
  match p with
  | AnOption o => (option_type o =? ty)%string
  | _ => false
  end.

(** ** Sample contracts

    The option positions built by [main], and a contract of unknown type to
    exercise the corner cases of the pricing method. *)

Definition call_tsla : Option :=
  mkOption (mkDerivative (mkPositionAttrs "CALL-TSLA" 10 25) "2026-06" 100)
           250 "Call".

Definition put_tsla : Option :=
  mkOption (mkDerivative (mkPositionAttrs "PUT-TSLA" 10 18) "2026-06" 100)
           200 "Put".

Definition call_amzn : Option :=
  mkOption (mkDerivative (mkPositionAttrs "CALL-AMZN" 20 5) "2026-03" 100)
           3000 "Call".

(** A contract whose type is neither Call nor Put. *)
Definition binary_tsla : Option :=
  mkOption (mkDerivative (mkPositionAttrs "BIN-TSLA" 10 25) "2026-06" 100)
           250 "Binary".

(** The portfolios and accounts built by [main]. *)
Definition p1 : Portfolio :=
  add_position
    (add_position Portfolio_init
       (AStock (mkStock (mkPositionAttrs "SAN" 1000 3.80) true)))
    (AStock (mkStock (mkPositionAttrs "AMZN" 10 130) false)).

Definition p2 : Portfolio :=
  add_position
    (add_position
       (add_position Portfolio_init
          (ADerivative
             (mkDerivative (mkPositionAttrs "FUT-DAX" 1 15600) "2026-12" 25)))
       (AnOption call_tsla))
    (AnOption put_tsla).

Definition p3 : Portfolio :=
  add_position Portfolio_init (AnOption call_amzn).

Definition c1 : ClientAccount :=
  assign_portfolio (ClientAccount_init "CH01-STOCKS" 10000) p1.

Definition c4 : ClientAccount := ClientAccount_init "UK04-EMPTY" 0.

Ltac fields := cbn [market_price strike_price option_type multiplier
                    derivative_super option_super call_tsla put_tsla
                    call_amzn binary_tsla with_multiplier].

(** ** 3. The reports of [main]

    Each report of [main] is a loop over [bank_database] that prints one line
    per selected item.  A report is modelled by the data its lines are
    formatted from, in printing order; the formatting itself is left out. *)

(** [max(iterable, key=...)]: the first item stays the maximum until a later
    one has a strictly greater key. *)
Fixpoint max_loop {A : Type} (key : A -> R) (maxitem : A) (items : list A) : A :=
  match items with
  | [] => maxitem
  | item :: rest =>
      if Rlt_dec (key maxitem) (key item) then max_loop key item rest
      else max_loop key maxitem rest
  end.

(** The builtin raises [ValueError] on an empty sequence. *)
Definition max_key {A : Type} (key : A -> R) (items : list A) : Py.result A :=
  match items with
  | [] => Py.Raise Py.ValueError
  | item :: rest => Py.Return (max_loop key item rest)
  end.

(** A [for] loop whose body may raise: the first exception ends the loop. *)
Fixpoint for_each {A St : Type} (body : St -> A -> Py.result St)
    (items : list A) (st : St) : Py.result St :=
  match items with
  | [] => Py.Return st
  | item :: rest => st' <- body st item ;; for_each body rest st'
  end.

(** Report 2: the dividend-paying stocks, as (ticker, account) pairs. *)
Definition dividend_opportunities (bank_database : list ClientAccount)
  : list (string * string) :=
  fold_left
    (fun printed client =>
       match portfolio client with
       | Some pf =>
           fold_left
             (fun printed pos =>
                match pos with
                | AStock s =>
                    if pays_dividends s
                    then printed ++ [(ticker (stock_super s), iban client)]
                    else printed
                | _ => printed
                end)
             (positions pf) printed
       | None => printed
       end)
    bank_database [].

(** Report 3, first loop: the list [all_calls]. *)
Definition all_calls (bank_database : list ClientAccount) : list Option :=
  fold_left
    (fun all_calls client =>
       match portfolio client with
       | Some pf =>
           fold_left
             (fun all_calls pos =>
                match pos with
                | AnOption o =>
                    if (option_type o =? "Call")%string
                    then all_calls ++ [o] else all_calls
                | _ => all_calls
                end)
             (positions pf) all_calls
       | None => all_calls
       end)
    bank_database [].

(** Report 3: the call with the highest strike, or [None] for the line
    "No Call options found". *)
Definition highest_strike_call (bank_database : list ClientAccount)
  : Py.result (option Option) :=
  match all_calls bank_database with
  | [] => Py.Return None
  | _ :: _ =>
      winner <- max_key strike_price (all_calls bank_database) ;;
      Py.Return (Some winner)
  end.

(** Report 4: the derivatives that are not options and whose multiplier
    exceeds 10, as (ticker, multiplier) pairs. *)
Definition pure_derivatives (bank_database : list ClientAccount)
  : list (string * R) :=
  fold_left
    (fun printed client =>
       match portfolio client with
       | Some pf =>
           fold_left
             (fun printed pos =>
                match pos with
                | ADerivative d =>
                    if Rlt_dec 10 (multiplier d)
                    then printed
                         ++ [(ticker (derivative_super d), multiplier d)]
                    else printed
                | _ => printed
                end)
             (positions pf) printed
       | None => printed
       end)
    bank_database [].

(** Report 5: the accounts whose portfolio is [None]. *)
Definition inactive_accounts (bank_database : list ClientAccount)
  : list string :=
  fold_left
    (fun printed client =>
       match portfolio client with
       | None => printed ++ [iban client]
       | Some _ => printed
       end)
    bank_database [].

(** Report 6, the counting loop: the pair
    [(total_derivatives, total_options)]. *)
Definition count_derivatives (bank_database : list ClientAccount)
  : nat * nat :=
  fold_left
    (fun counters client =>
       match portfolio client with
       | Some pf =>
           fold_left
             (fun '(total_derivatives, total_options) pos =>
                let total_derivatives :=
                  match pos with
                  | ADerivative _ | AnOption _ => (total_derivatives + 1)%nat
                  | AStock _ => total_derivatives
                  end in
                let total_options :=
                  match pos with
                  | AnOption _ => (total_options + 1)%nat
                  | _ => total_options
                  end in
                (total_derivatives, total_options))
             (positions pf) counters
       | None => counters
       end)
    bank_database (0%nat, 0%nat).

(** Report 6: the hedging ratio in percent, or [None] when nothing is
    printed. *)
Definition hedging_ratio (bank_database : list ClientAccount)
  : Py.result (option R) :=
  let '(total_derivatives, total_options) :=
    count_derivatives bank_database in
  if (0 <? total_derivatives)%nat then
    q <- Py.div (INR total_options) (INR total_derivatives) ;;
    Py.Return (Some (q * 100))
  else Py.Return None.

(** Report 7: the average market price of every assigned portfolio. *)
Definition average_prices (bank_database : list ClientAccount)
  : Py.result (list (string * R)) :=
  for_each
    (fun printed client =>
       match portfolio client with
       | Some pf =>
           avg <- average_market_price pf ;;
           Py.Return (printed ++ [(iban client, avg)])
       | None => Py.Return printed
       end)
    bank_database [].

(** Report 8: the accounts whose portfolio runs a straddle. *)
Definition straddle_alerts (bank_database : list ClientAccount)
  : list string :=
  fold_left
    (fun printed client =>
       match portfolio client with
       | Some pf =>
           if has_straddle_strategy pf then printed ++ [iban client]
           else printed
       | None => printed
       end)
    bank_database [].

(** [isinstance(pos, Option)] *)
Definition is_option (pos : Position) : bool :=
  match pos with
  | AnOption _ => true
  | _ => false
  end.

(** [isinstance(pos, Derivative)]: an option is a derivative. *)
Definition is_derivative (pos : Position) : bool :=
  match pos with
  | AStock _ => false
  | _ => true
  end.

(** [isinstance(pos, Derivative) and not isinstance(pos, Option)] *)
Definition is_plain_derivative (pos : Position) : bool :=
  is_derivative pos && negb (is_option pos).

(** The positions a report loop visits for one account. *)
Definition held_positions (client : ClientAccount) : list Position :=
  match portfolio client with
  | Some pf => positions pf
  | None => []
  end.

(** The remaining accounts of [main]. *)
Definition c2 : ClientAccount :=
  assign_portfolio (ClientAccount_init "CH02-HEDGE" 500000) p2.

Definition c3 : ClientAccount :=
  assign_portfolio (ClientAccount_init "US03-HIGH-GAMMA" 20000) p3.

Definition bank_database : list ClientAccount := [c1; c2; c3; c4].

(** ** 4. The pricing method in double precision

    Overflow and underflow decide whether [theoretical_value_bs] returns or
    raises, and the real numbers have neither.  This second embedding of the
    method keeps Python's floats as IEEE 754 binary64 numbers.  The
    arithmetic operators, the comparisons and [math.sqrt] are the correctly
    rounded primitives; [log], [exp], [erf] and [pow(., 2.0)] belong to the
    C library and are parameters, wrapped the way the [math] module and the
    [**] operator wrap them. *)

Module Double.

Import Floats.
#[local] Open Scope float_scope.
#[local] Set Warnings "-inexact-float".

Inductive Error : Set :=
| ZeroDivisionError
| ValueError
| OverflowError.

Inductive result (A : Type) : Type :=
| Raise (e : Error)
| Return (a : A).
Arguments Raise {A} e.
Arguments Return {A} a.

Definition bind {A B : Type} (m : result A) (k : A -> result B) : result B :=
  match m with
  | Raise e => Raise e
  | Return a => k a
  end.

Notation "x <-- m ;; k" := (bind m (fun x => k))
  (at level 61, m at next level, right associativity).

(** The functions of the C library the method calls. *)
Record Libm : Type := mkLibm {
  log : float -> float;
  exp : float -> float;
  erf : float -> float;
  pow : float -> float -> float
}.

(** [x / y]: raises on a divisor equal to zero, of either sign. *)
Definition float_div (x y : float) : result float :=
  if y =? 0 then Raise ZeroDivisionError else Return (x / y).

(** [math.log(x)]: a NaN is passed on, any other argument that is not
    positive is a domain error. *)
Definition math_log (libm : Libm) (x : float) : result float :=
  if is_nan x then Return x
  else if 0 <? x then Return (log libm x)
  else Raise ValueError.

(** [math.sqrt(x)]: a negative argument is a domain error. *)
Definition math_sqrt (x : float) : result float :=
  if x <? 0 then Raise ValueError else Return (sqrt x).

(** [math.exp(x)]: an infinite result on a finite argument is a range
    error. *)
Definition math_exp (libm : Libm) (x : float) : result float :=
  let r := exp libm x in
  if is_infinity r && is_finite x then Raise OverflowError else Return r.

(** [x ** 2]: an infinite result on a finite base is a range error. *)
Definition float_pow_2 (libm : Libm) (x : float) : result float :=
  let ix := pow libm x 2 in
  if is_infinity ix && is_finite x then Raise OverflowError else Return ix.

(** [max(0, x)]; the integer 0 it may return is the float 0 here. *)
Definition max0 (x : float) : float :=
  if 0 <? x then x else 0.

(** The attributes of an [Option] object. *)
Record Option : Type := mkOption {
  ticker : string;
  quantity : float;
  market_price : float;
  expiration_date : string;
  multiplier : float;
  strike_price : float;
  option_type : string
}.

(** The local function [N]. *)
Definition N (libm : Libm) (x : float) : result float :=
  s2 <-- math_sqrt 2 ;;
  q <-- float_div x s2 ;;
  float_div (1 + erf libm q) 2.

(** Lines 103 and 104: [d1] and [d2]. *)
Definition d1_d2 (libm : Libm) (self : Option) (r sigma T : float)
  : result (float * float) :=
  let S := market_price self in
  let K := strike_price self in
  q <-- float_div S K ;;
  l <-- math_log libm q ;;
  s2 <-- float_pow_2 libm sigma ;;
  sqT <-- math_sqrt T ;;
  d1 <-- float_div (l + (r + 0.5 * s2) * T) (sigma * sqT) ;;
  sqT' <-- math_sqrt T ;;
  Return (d1, d1 - sigma * sqT').

(** Lines 110 to 115: the price of step 4. *)
Definition step_4 (libm : Libm) (self : Option) (r T d1 d2 : float)
  : result float :=
  let S := market_price self in
  let K := strike_price self in
  if (option_type self =? "Call")%string then
    n1 <-- N libm d1 ;;
    e <-- math_exp libm (- r * T) ;;
    n2 <-- N libm d2 ;;
    Return (S * n1 - K * e * n2)
  else if (option_type self =? "Put")%string then
    e <-- math_exp libm (- r * T) ;;
    n2 <-- N libm (- d2) ;;
    n1 <-- N libm (- d1) ;;
    Return (K * e * n2 - S * n1)
  else Return 0.

(** [Option.theoretical_value_bs] *)
Definition theoretical_value_bs (libm : Libm) (self : Option)
    (risk_free_rate volatility time_to_maturity : float) : result float :=
  let S := market_price self in
  let K := strike_price self in
  let r := risk_free_rate in
  let sigma := volatility in
  let T := time_to_maturity in
  if T <=? 0 then
    Return (if (option_type self =? "Call")%string
            then max0 (S - K) else max0 (K - S))
  else
    d <-- d1_d2 libm self r sigma T ;;
    theoretical_price <-- step_4 libm self r T (fst d) (snd d) ;;
    Return (theoretical_price * multiplier self).

(** The formulas of the pricing steps, evaluated in double precision with
    the same library and no check. *)
Definition d1_formula (libm : Libm) (S K r sigma T : float) : float :=
  (log libm (S / K) + (r + 0.5 * pow libm sigma 2) * T) / (sigma * sqrt T).

Definition d2_formula (libm : Libm) (S K r sigma T : float) : float :=
  d1_formula libm S K r sigma T - sigma * sqrt T.

Definition N_formula (libm : Libm) (x : float) : float :=
  (1 + erf libm (x / sqrt 2)) / 2.

Definition call_price (libm : Libm) (S K r sigma T : float) : float :=
  S * N_formula libm (d1_formula libm S K r sigma T)
  - K * exp libm (- r * T) * N_formula libm (d2_formula libm S K r sigma T).

Definition put_price (libm : Libm) (S K r sigma T : float) : float :=
  K * exp libm (- r * T) * N_formula libm (- d2_formula libm S K r sigma T)
  - S * N_formula libm (- d1_formula libm S K r sigma T).

(** A crude library (first terms of the series), to run the method on
    concrete inputs. *)
Definition series_libm : Libm :=
  mkLibm (fun x => x - 1) (fun x => 1 + x) (fun x => x) (fun x _ => x * x).

(** A call quoted far below its strike: [S / K] underflows to 0. *)
Definition call_tiny : Option :=
  mkOption "CALL-TINY" 10 1e-200 "2026-06" 100 1e200 "Call".

(** The options of [main] and a contract of unknown type. *)
Definition call_amzn : Option :=
  mkOption "CALL-AMZN" 20 5 "2026-03" 100 3000 "Call".

Definition put_tsla : Option :=
  mkOption "PUT-TSLA" 10 18 "2026-06" 100 200 "Put".

Definition binary_tsla : Option :=
  mkOption "BIN-TSLA" 10 25 "2026-06" 100 250 "Binary".

End Double.

(** ** Facts about the Python primitives *)

Section PyFacts.

Lemma div_returns (x y : R) : y <> 0 -> Py.div x y = Py.Return (x / y).
Proof.
  intros Hy; unfold Py.div.
  destruct (Req_dec_T y 0) as [E | _]; [contradiction | reflexivity].
Qed.

Lemma div_raises (x : R) : Py.div x 0 = Py.Raise Py.ZeroDivisionError.
Proof.
  unfold Py.div.
  destruct (Req_dec_T 0 0) as [_ | NE]; [reflexivity | now elim NE].
Qed.

Lemma log_returns (x : R) : 0 < x -> Py.log x = Py.Return (ln x).
Proof.
  intros Hx; unfold Py.log.
  destruct (Rlt_dec 0 x) as [_ | NL]; [reflexivity | contradiction].
Qed.

Lemma log_raises (x : R) : x <= 0 -> Py.log x = Py.Raise Py.ValueError.
Proof.
  intros Hx; unfold Py.log.
  destruct (Rlt_dec 0 x) as [L | _]; [lra | reflexivity].
Qed.

Lemma sqrt_returns (x : R) : 0 <= x -> Py.sqrt x = Py.Return (sqrt x).
Proof.
  intros Hx; unfold Py.sqrt.
  destruct (Rlt_dec x 0) as [L | _]; [lra | reflexivity].
Qed.

Lemma max0_Rmax (x : R) : Py.max0 x = Rmax 0 x.
Proof.
  unfold Py.max0, Rmax.
  destruct (Rlt_dec 0 x) as [L | NL], (Rle_dec 0 x) as [Le | NLe];
    try reflexivity; lra.
Qed.

Lemma fold_left_Rplus (xs : list R) (acc : R) :
  fold_left Rplus xs acc = acc + sum_list xs.
Proof.
  revert acc; induction xs as [| x xs IH]; intros acc; simpl.
  - ring.
  - rewrite IH; ring.
Qed.

Lemma sum_sum_list (xs : list R) : Py.sum xs = sum_list xs.
Proof. unfold Py.sum; rewrite fold_left_Rplus; ring. Qed.

(** The running total after one more item. *)
Lemma sum_snoc (xs : list R) (x : R) : Py.sum (xs ++ [x]) = Py.sum xs + x.
Proof. unfold Py.sum; rewrite fold_left_app; reflexivity. Qed.

Lemma sqrt2_neq_0 : sqrt 2 <> 0.
Proof. pose proof (sqrt_lt_R0 2); lra. Qed.

Lemma N_returns (x : R) : N x = Py.Return (BlackScholes.Phi x).
Proof.
  unfold N, BlackScholes.Phi.
  rewrite sqrt_returns by lra; cbn [Py.bind].
  rewrite div_returns by exact sqrt2_neq_0; cbn [Py.bind].
  apply div_returns; lra.
Qed.

(** [N(x) + N(-x) = 1], from the symmetry of [erf]. *)
Lemma Phi_opp (x : R) : BlackScholes.Phi (- x) = 1 - BlackScholes.Phi x.
Proof.
  unfold BlackScholes.Phi.
  replace (- x / sqrt 2) with (- (x / sqrt 2))
    by (field; exact sqrt2_neq_0).
  rewrite Erf.erf_odd; field.
Qed.

End PyFacts.

(** ** Valuation *)

(** C8: a derivative and an option with quantity [q], market price [p] and
    multiplier [m] are worth [q * p * m], a stock with quantity [q] and
    market price [p] is worth [q * p]; the value is a total function of the
    position's own fields. *)
Theorem calculate_current_value_formula :
  forall (t e ty : string) (q p m K : R) (dv : bool),
    calculate_current_value
      (ADerivative (mkDerivative (mkPositionAttrs t q p) e m)) = q * p * m
    /\ calculate_current_value
         (AnOption (mkOption (mkDerivative (mkPositionAttrs t q p) e m) K ty))
       = q * p * m
    /\ calculate_current_value (AStock (mkStock (mkPositionAttrs t q p) dv))
       = q * p.
Proof. intros; repeat split; reflexivity. Qed.

(** C7: the total valuation of a portfolio is the sum of the current values
    of its positions; it is 0 for the empty portfolio and every inserted
    position adds its value to the total of those inserted before it. *)
Theorem total_valuation_sum :
  forall pf : Portfolio,
    total_valuation pf = sum_list (map calculate_current_value (positions pf))
    /\ total_valuation Portfolio_init = 0
    /\ forall p : Position,
         total_valuation (add_position pf p)
         = total_valuation pf + calculate_current_value p.
Proof.
  intros pf; unfold total_valuation; repeat split.
  - apply sum_sum_list.
  - intros p; cbn [add_position positions].
    rewrite map_app; apply sum_snoc.
Qed.

(** C6: the net worth of an account is its cash balance plus the total
    valuation of its portfolio when one is assigned, and its cash balance
    when none is. *)
Theorem calculate_net_worth_formula :
  forall acct : ClientAccount,
    calculate_net_worth acct
    = match portfolio acct with
      | Some pf => cash_balance acct + total_valuation pf
      | None => cash_balance acct
      end
    /\ calculate_net_worth
         (ClientAccount_init (iban acct) (cash_balance acct))
       = cash_balance acct
    /\ forall pf : Portfolio,
         calculate_net_worth (assign_portfolio acct pf)
         = cash_balance acct + sum_list (map calculate_current_value
                                             (positions pf)).
Proof.
  intros acct; unfold calculate_net_worth; repeat split.
  intros pf; cbn [assign_portfolio portfolio cash_balance].
  unfold total_valuation; now rewrite sum_sum_list.
Qed.

(** C9: the average market price is the arithmetic mean of the per-unit
    market prices of the positions, and 0 for a portfolio without positions;
    it never raises. *)
Theorem average_market_price_mean :
  forall pf : Portfolio,
    average_market_price pf
    = Py.Return
        match positions pf with
        | [] => 0
        | _ :: _ =>
            arithmetic_mean
              (map (fun p => market_price (attrs p)) (positions pf))
        end.
Proof.
  intros [ps]; unfold average_market_price, arithmetic_mean; cbn [positions].
  destruct ps as [| p ps]; [reflexivity |].
  rewrite sum_sum_list, length_map.
  apply div_returns.
  apply not_0_INR; discriminate.
Qed.

(** ** Straddle detection *)

Section Straddle.

Lemma straddle_flags_spec (p : Position) (hc hp : bool) :
  straddle_flags p hc hp
  = (is_option_of_type "Call" p || hc, is_option_of_type "Put" p || hp).
Proof.
  destruct p as [s | d | o]; reflexivity.
Qed.

(** Loop invariant: as long as the early return has not fired, the loop
    answers whether both flags end up set. *)
Lemma straddle_loop_spec (ps : list Position) :
  forall hc hp : bool,
    hc && hp = false ->
    straddle_loop ps hc hp
    = (hc || existsb (is_option_of_type "Call") ps)
      && (hp || existsb (is_option_of_type "Put") ps).
Proof.
  induction ps as [| p ps IH]; intros hc hp Hboth.
  - cbn [straddle_loop existsb]. rewrite !orb_false_r. now rewrite Hboth.
  - cbn [straddle_loop existsb]. rewrite straddle_flags_spec.
    destruct (is_option_of_type "Call" p) eqn:Ec,
             (is_option_of_type "Put" p) eqn:Ep,
             hc, hp; try discriminate Hboth; cbn;
      try reflexivity; rewrite IH by reflexivity; cbn; reflexivity.
Qed.

Lemma existsb_option_of_type (pf : Portfolio) (ty : string) :
  existsb (is_option_of_type ty) (positions pf) = true
  <-> holds_option_of_type pf ty.
Proof.
  unfold holds_option_of_type; rewrite existsb_exists; split.
  - intros [[s | d | o] [Hin Hty]]; cbn in Hty; try discriminate.
    apply String.eqb_eq in Hty; eauto.
  - intros [o [Hin Hty]]; exists (AnOption o); split; [exact Hin |].
    cbn; now apply String.eqb_eq.
Qed.

Lemma has_straddle_strategy_existsb (pf : Portfolio) :
  has_straddle_strategy pf
  = existsb (is_option_of_type "Call") (positions pf)
    && existsb (is_option_of_type "Put") (positions pf).
Proof.
  unfold has_straddle_strategy; now rewrite straddle_loop_spec.
Qed.

End Straddle.

(** C5: [has_straddle_strategy] answers true exactly when the portfolio
    holds at least one option of type Call and at least one option of type
    Put, whatever the other positions, their order, strikes, expirations
    and quantities; it answers false otherwise. *)
Theorem has_straddle_strategy_iff :
  forall pf : Portfolio,
    (has_straddle_strategy pf = true
     <-> holds_option_of_type pf "Call" /\ holds_option_of_type pf "Put")
    /\ (has_straddle_strategy pf = false
        <-> ~ (holds_option_of_type pf "Call"
               /\ holds_option_of_type pf "Put")).
Proof.
  intros pf.
  assert (Ht : has_straddle_strategy pf = true
               <-> holds_option_of_type pf "Call"
                   /\ holds_option_of_type pf "Put").
  { rewrite has_straddle_strategy_existsb, andb_true_iff.
    now rewrite !existsb_option_of_type. }
  split; [exact Ht |].
  rewrite <- Ht. destruct (has_straddle_strategy pf); split; intro H;
    try reflexivity; try discriminate; congruence.
Qed.

(** ** Black-Scholes theoretical value *)

Section TheoreticalValue.

Variable self : Option.
Variables r sigma T : R.

Let S := market_price (derivative_super (option_super self)).
Let K := strike_price self.

(** The expired branch: the guard clause returns at once. *)
Lemma theoretical_value_bs_expired :
  T <= 0 ->
  theoretical_value_bs self r sigma T
  = Py.Return (if (option_type self =? "Call")%string
               then Rmax 0 (S - K) else Rmax 0 (K - S)).
Proof.
  intros HT; unfold theoretical_value_bs.
  destruct (Rle_dec T 0) as [_ | NT]; [| contradiction].
  now rewrite !max0_Rmax.
Qed.

(** The pricing branch, when none of its operations raises. *)
Lemma theoretical_value_bs_live :
  0 < T -> K <> 0 -> 0 < S / K -> sigma <> 0 ->
  theoretical_value_bs self r sigma T
  = Py.Return
      ((let d1 := (ln (S / K) + (r + 0.5 * sigma ^ 2) * T)
                  / (sigma * sqrt T) in
        let d2 := d1 - sigma * sqrt T in
        if (option_type self =? "Call")%string then
          S * BlackScholes.Phi d1
          - K * exp (- r * T) * BlackScholes.Phi d2
        else if (option_type self =? "Put")%string then
          K * exp (- r * T) * BlackScholes.Phi (- d2)
          - S * BlackScholes.Phi (- d1)
        else 0)
       * multiplier (option_super self)).
Proof.
  intros HT HK HSK Hsigma; unfold theoretical_value_bs.
  destruct (Rle_dec T 0) as [LT | _]; [lra |].
  fold S K.
  assert (HsqT : 0 < sqrt T) by now apply sqrt_lt_R0.
  rewrite div_returns by exact HK; cbn [Py.bind].
  rewrite log_returns by exact HSK; cbn [Py.bind].
  rewrite sqrt_returns by lra; cbn [Py.bind].
  rewrite div_returns by (apply Rmult_integral_contrapositive_currified; lra).
  cbn [Py.bind].
  rewrite !N_returns.
  destruct (option_type self =? "Call")%string;
    [reflexivity |].
  destruct (option_type self =? "Put")%string; reflexivity.
Qed.

(** A non-positive ratio [S / K] makes [math.log] raise, whatever the
    option type. *)
Lemma theoretical_value_bs_log_raises :
  0 < T -> K <> 0 -> S / K <= 0 ->
  theoretical_value_bs self r sigma T = Py.Raise Py.ValueError.
Proof.
  intros HT HK HSK; unfold theoretical_value_bs.
  destruct (Rle_dec T 0) as [LT | _]; [lra |].
  fold S K.
  rewrite div_returns by exact HK; cbn [Py.bind].
  now rewrite log_raises.
Qed.

(** A zero strike or a zero volatility makes a division raise. *)
Lemma theoretical_value_bs_div_raises :
  0 < T -> K = 0 \/ (0 < S / K /\ sigma = 0) ->
  theoretical_value_bs self r sigma T = Py.Raise Py.ZeroDivisionError.
Proof.
  intros HT Hz; unfold theoretical_value_bs.
  destruct (Rle_dec T 0) as [LT | _]; [lra |].
  fold S K.
  destruct Hz as [HK | [HSK Hsigma]].
  - rewrite HK, div_raises; reflexivity.
  - assert (HK : K <> 0).
    { intros E; rewrite E in HSK; unfold Rdiv in HSK.
      rewrite Rinv_0 in HSK; lra. }
    rewrite div_returns by exact HK; cbn [Py.bind].
    rewrite log_returns by exact HSK; cbn [Py.bind].
    rewrite sqrt_returns by lra; cbn [Py.bind].
    rewrite Hsigma, Rmult_0_l, div_raises; reflexivity.
Qed.

End TheoreticalValue.

(** ** Specification of [theoretical_value_bs] *)

(** C2: when the time to maturity is not positive, [theoretical_value_bs]
    returns the intrinsic value, [max(0, S - K)] for a Call and
    [max(0, K - S)] for a Put, and the contract multiplier plays no part in
    the result. *)
Theorem theoretical_value_bs_intrinsic :
  forall (self : Option) (r sigma T : R),
    T <= 0 ->
    (option_type self = "Call"%string ->
     theoretical_value_bs self r sigma T
     = Py.Return
         (Rmax 0 (market_price (derivative_super (option_super self))
                  - strike_price self)))
    /\ (option_type self = "Put"%string ->
        theoretical_value_bs self r sigma T
        = Py.Return
            (Rmax 0 (strike_price self
                     - market_price (derivative_super (option_super self)))))
    /\ (forall m : R,
          theoretical_value_bs (with_multiplier self m) r sigma T
          = theoretical_value_bs self r sigma T).
Proof.
  intros self r sigma T HT; repeat split.
  - intros Hty; rewrite theoretical_value_bs_expired by exact HT.
    now rewrite Hty.
  - intros Hty; rewrite theoretical_value_bs_expired by exact HT.
    now rewrite Hty.
  - intros m; now rewrite !theoretical_value_bs_expired by exact HT.
Qed.

Lemma theoretical_value_bs_intrinsic_witness :
  0 <= 0
  /\ theoretical_value_bs call_tsla 0.04 0.25 0
     = Py.Return (Rmax 0 (25 - 250))
  /\ theoretical_value_bs put_tsla 0.04 0.25 0 = Py.Return (Rmax 0 (200 - 18))
  /\ theoretical_value_bs (with_multiplier put_tsla 1) 0.04 0.25 0
     = theoretical_value_bs put_tsla 0.04 0.25 0.
Proof.
  assert (H0 : 0 <= 0) by lra.
  pose proof (theoretical_value_bs_intrinsic call_tsla 0.04 0.25 0 H0)
    as [Hcall _].
  pose proof (theoretical_value_bs_intrinsic put_tsla 0.04 0.25 0 H0)
    as [_ [Hput Hmul]].
  split; [exact H0 |].
  split; [apply Hcall; reflexivity |].
  split; [apply Hput; reflexivity | apply Hmul].
Defined.

(** C10: when the time to maturity is not positive and the option type is
    anything but Call, unknown types included, [theoretical_value_bs]
    returns the Put intrinsic value [max(0, K - S)], not the zero of the
    unknown-type fallback. *)
Theorem theoretical_value_bs_expired_not_call :
  forall (self : Option) (r sigma T : R),
    T <= 0 ->
    option_type self <> "Call"%string ->
    theoretical_value_bs self r sigma T
    = Py.Return
        (Rmax 0 (strike_price self
                 - market_price (derivative_super (option_super self)))).
Proof.
  intros self r sigma T HT Hty.
  rewrite theoretical_value_bs_expired by exact HT.
  apply String.eqb_neq in Hty; now rewrite Hty.
Qed.

Lemma theoretical_value_bs_expired_not_call_witness :
  (-1 <= 0 /\ option_type binary_tsla <> "Call"%string)
  /\ theoretical_value_bs binary_tsla 0.04 0.25 (-1)
     = Py.Return (Rmax 0 (250 - 25)).
Proof.
  assert (HT : -1 <= 0) by lra.
  assert (Hty : option_type binary_tsla <> "Call"%string)
    by (apply String.eqb_neq; reflexivity).
  split; [split; assumption |].
  exact (theoretical_value_bs_expired_not_call binary_tsla 0.04 0.25 (-1)
           HT Hty).
Defined.

(** ** The data of [main] *)

Example p2_has_straddle : has_straddle_strategy p2 = true.
Proof. reflexivity. Qed.

Example p1_p3_no_straddle :
  has_straddle_strategy p1 = false /\ has_straddle_strategy p3 = false.
Proof. split; reflexivity. Qed.

Example c1_net_worth : calculate_net_worth c1 = 15100.
Proof.
  unfold calculate_net_worth, total_valuation, Py.sum; cbn.
  unfold Stock_calculate_current_value; cbn [quantity market_price stock_super].
  lra.
Qed.

Example c4_net_worth : calculate_net_worth c4 = 0.
Proof. reflexivity. Qed.

Example p2_average_market_price :
  average_market_price p2 = Py.Return ((15600 + 25 + 18) / 3).
Proof.
  unfold average_market_price; cbn [p2 add_position Portfolio_init positions app].
  rewrite sum_sum_list, div_returns by (apply not_0_INR; discriminate).
  cbn; f_equal; field.
Qed.

Example call_tsla_expired :
  theoretical_value_bs call_tsla 0.04 0.25 0 = Py.Return 0.
Proof.
  rewrite theoretical_value_bs_expired by lra; fields.
  cbn [String.eqb Ascii.eqb Bool.eqb andb].
  f_equal; unfold Rmax; destruct (Rle_dec 0 (25 - 250)); lra.
Qed.

(** ** Further properties of [theoretical_value_bs] *)

(** X3: Once the time to maturity is not positive the method never raises, not
    even on a zero strike or a zero volatility, and its value is not
    negative. *)
Theorem theoretical_value_bs_expired_nonneg :
  forall (self : Option) (r sigma T : R),
    T <= 0 ->
    exists v : R, theoretical_value_bs self r sigma T = Py.Return v /\ 0 <= v.
Proof.
  intros self r sigma T HT.
  rewrite theoretical_value_bs_expired by exact HT.
  eexists; split; [reflexivity |].
  destruct (option_type self =? "Call")%string; apply Rmax_l.
Qed.

Lemma theoretical_value_bs_expired_nonneg_witness :
  0 <= 0
  /\ exists v : R,
       theoretical_value_bs (mkOption (option_super put_tsla) 0 "Put")
         0.04 0 0
       = Py.Return v /\ 0 <= v.
Proof.
  assert (HT : 0 <= 0) by lra.
  split; [exact HT |].
  exact (theoretical_value_bs_expired_nonneg
           (mkOption (option_super put_tsla) 0 "Put") 0.04 0 0 HT).
Defined.

(** X4: With a positive time to maturity the value is linear in the contract
    multiplier: pricing with multiplier [m] is pricing with multiplier 1 and
    scaling the result by [m], exceptions included. *)
Theorem theoretical_value_bs_multiplier_scaling :
  forall (self : Option) (r sigma T m : R),
    0 < T ->
    theoretical_value_bs (with_multiplier self m) r sigma T
    = (v <- theoretical_value_bs (with_multiplier self 1) r sigma T ;;
       Py.Return (v * m)).
Proof.
  intros self r sigma T m HT.
  destruct (Req_dec_T (strike_price self) 0) as [HK | HK].
  { rewrite !theoretical_value_bs_div_raises
      by (try exact HT; left; exact HK); reflexivity. }
  destruct (Rlt_dec 0 (market_price (derivative_super (option_super self))
                       / strike_price self)) as [HSK | HSK].
  2:{ rewrite !theoretical_value_bs_log_raises
        by (try assumption; cbn [with_multiplier market_price strike_price
                                 derivative_super option_super]; lra).
      reflexivity. }
  destruct (Req_dec_T sigma 0) as [Hs | Hs].
  { rewrite !theoretical_value_bs_div_raises
      by (try exact HT; right; split; assumption); reflexivity. }
  rewrite !theoretical_value_bs_live by assumption.
  cbn [Py.bind with_multiplier multiplier option_super strike_price
       option_type market_price derivative_super].
  f_equal; ring.
Qed.

Lemma theoretical_value_bs_multiplier_scaling_witness :
  0 < 0.5
  /\ theoretical_value_bs (with_multiplier call_amzn 100) 0.04 0.25 0.5
     = (v <- theoretical_value_bs (with_multiplier call_amzn 1) 0.04 0.25 0.5 ;;
        Py.Return (v * 100)).
Proof.
  assert (HT : 0 < 0.5) by lra.
  split; [exact HT |].
  exact (theoretical_value_bs_multiplier_scaling call_amzn 0.04 0.25 0.5 100
           HT).
Defined.

(** X5: The local function [N] never raises, is symmetric about 0, that is
    [N(x) + N(-x) = 1], and [N(0) = 1/2]. *)
Theorem N_symmetry :
  forall x : R,
    (exists a b : R, N x = Py.Return a /\ N (- x) = Py.Return b /\ a + b = 1)
    /\ N 0 = Py.Return (1 / 2).
Proof.
  intros x; split.
  - exists (BlackScholes.Phi x), (BlackScholes.Phi (- x)).
    rewrite !N_returns, Phi_opp; repeat split; ring.
  - rewrite N_returns; unfold BlackScholes.Phi.
    replace (0 / sqrt 2) with 0 by (field; exact sqrt2_neq_0).
    rewrite Erf.erf_0; f_equal; field.
Qed.

(** X7: Parity at expiry: once the time to maturity is not positive, the values
    of a Call and of a Put on the same market price and strike differ by
    [S - K], whatever their multipliers. *)
Theorem expired_call_put_parity :
  forall (c p : Option) (S K r sigma T : R),
    option_type c = "Call"%string ->
    option_type p = "Put"%string ->
    market_price (derivative_super (option_super c)) = S ->
    market_price (derivative_super (option_super p)) = S ->
    strike_price c = K ->
    strike_price p = K ->
    T <= 0 ->
    exists C P : R,
      theoretical_value_bs c r sigma T = Py.Return C
      /\ theoretical_value_bs p r sigma T = Py.Return P
      /\ C - P = S - K.
Proof.
  intros c p S K r sigma T Hc Hp HSc HSp HKc HKp HT.
  exists (Rmax 0 (S - K)), (Rmax 0 (K - S)); repeat split.
  - rewrite theoretical_value_bs_expired by exact HT.
    now rewrite Hc, HSc, HKc.
  - rewrite theoretical_value_bs_expired by exact HT.
    now rewrite Hp, HSp, HKp.
  - unfold Rmax.
    destruct (Rle_dec 0 (S - K)), (Rle_dec 0 (K - S)); lra.
Qed.

Lemma expired_call_put_parity_witness :
  exists C P : R,
    theoretical_value_bs call_tsla 0.04 0.25 0 = Py.Return C
    /\ theoretical_value_bs
         (mkOption (with_multiplier call_tsla 1).(option_super) 250 "Put")
         0.04 0.25 0
       = Py.Return P
    /\ C - P = 25 - 250.
Proof.
  apply (expired_call_put_parity
           call_tsla
           (mkOption (with_multiplier call_tsla 1).(option_super) 250 "Put")
           25 250 0.04 0.25 0);
    try reflexivity; lra.
Defined.

(** ** Further properties of the portfolio analytics *)

Section PortfolioFacts.

Lemma existsb_Permutation {A : Type} (f : A -> bool) (xs ys : list A) :
  Permutation xs ys -> existsb f xs = existsb f ys.
Proof.
  induction 1 as [| x xs ys _ IH | x y xs | xs ys zs _ IH1 _ IH2];
    cbn [existsb].
  - reflexivity.
  - now rewrite IH.
  - destruct (f x), (f y); reflexivity.
  - now rewrite IH1.
Qed.

(** A type string cannot be both Call and Put. *)
Lemma call_xor_put (p : Position) :
  is_option_of_type "Call" p && is_option_of_type "Put" p = false.
Proof.
  destruct p as [s | d | o]; cbn [is_option_of_type]; try reflexivity.
  destruct (option_type o =? "Call")%string eqn:Ec; [| reflexivity].
  apply String.eqb_eq in Ec; rewrite Ec; reflexivity.
Qed.

Lemma option_of_type_is_option (ty : string) (p : Position) :
  is_option_of_type ty p = true -> is_option p = true.
Proof. destruct p; cbn; congruence. Qed.

(** Every option met counts once, whichever flag it sets. *)
Lemma flags_le_options (ps : list Position) :
  ((if existsb (is_option_of_type "Call") ps then 1 else 0)
   + (if existsb (is_option_of_type "Put") ps then 1 else 0)
   <= List.length (filter is_option ps))%nat.
Proof.
  induction ps as [| p ps IH]; [cbn; lia |].
  cbn [existsb filter].
  pose proof (call_xor_put p) as Hx.
  pose proof (option_of_type_is_option "Call" p) as Hc.
  pose proof (option_of_type_is_option "Put" p) as Hp.
  destruct (is_option_of_type "Call" p), (is_option_of_type "Put" p);
    try discriminate Hx; cbn [orb].
  - rewrite Hc by reflexivity; cbn [List.length].
    destruct (existsb (is_option_of_type "Call") ps),
             (existsb (is_option_of_type "Put") ps); lia.
  - rewrite Hp by reflexivity; cbn [List.length].
    destruct (existsb (is_option_of_type "Call") ps),
             (existsb (is_option_of_type "Put") ps); lia.
  - destruct (is_option p); cbn [List.length]; lia.
Qed.

End PortfolioFacts.

(** X8: The straddle detection does not depend on the order of the positions:
    two portfolios holding the same positions in different orders get the
    same answer, early return or not. *)
Theorem has_straddle_strategy_Permutation :
  forall pf pf' : Portfolio,
    Permutation (positions pf) (positions pf') ->
    has_straddle_strategy pf = has_straddle_strategy pf'.
Proof.
  intros pf pf' Hperm.
  rewrite !has_straddle_strategy_existsb.
  now rewrite !(existsb_Permutation _ _ _ Hperm).
Qed.

Lemma has_straddle_strategy_Permutation_witness :
  has_straddle_strategy p2
  = has_straddle_strategy
      (mkPortfolio
         [AnOption put_tsla; AnOption call_tsla;
          ADerivative
            (mkDerivative (mkPositionAttrs "FUT-DAX" 1 15600) "2026-12" 25)]).
Proof.
  apply has_straddle_strategy_Permutation.
  cbn [p2 add_position Portfolio_init positions app].
  apply Permutation_rev.
Defined.

(** X9: Adding a position never undoes a detected straddle, and adding a stock
    or a plain derivative never changes the answer. *)
Theorem has_straddle_strategy_add_position :
  forall pf : Portfolio,
    (forall p : Position,
       has_straddle_strategy pf = true ->
       has_straddle_strategy (add_position pf p) = true)
    /\ (forall s : Stock,
          has_straddle_strategy (add_position pf (AStock s))
          = has_straddle_strategy pf)
    /\ (forall d : Derivative,
          has_straddle_strategy (add_position pf (ADerivative d))
          = has_straddle_strategy pf).
Proof.
  intros pf; repeat split.
  - intros p; rewrite !has_straddle_strategy_existsb.
    cbn [add_position positions]; rewrite !existsb_app.
    intros H; apply andb_true_iff in H as [Hc Hp].
    now rewrite Hc, Hp.
  - intros s; rewrite !has_straddle_strategy_existsb.
    cbn [add_position positions]; rewrite !existsb_app.
    cbn; now rewrite !orb_false_r.
  - intros d; rewrite !has_straddle_strategy_existsb.
    cbn [add_position positions]; rewrite !existsb_app.
    cbn; now rewrite !orb_false_r.
Qed.

Lemma has_straddle_strategy_add_position_witness :
  has_straddle_strategy p2 = true
  /\ has_straddle_strategy (add_position p2 (AnOption call_amzn)) = true.
Proof.
  assert (H : has_straddle_strategy p2 = true) by reflexivity.
  split; [exact H |].
  exact (proj1 (has_straddle_strategy_add_position p2)
           (AnOption call_amzn) H).
Defined.

(** X10: A straddle takes two positions: whenever the detection answers true the
    portfolio holds at least two options. *)
Theorem has_straddle_strategy_two_options :
  forall pf : Portfolio,
    has_straddle_strategy pf = true ->
    (2 <= List.length (filter is_option (positions pf)))%nat.
Proof.
  intros pf; rewrite has_straddle_strategy_existsb.
  intros H; apply andb_true_iff in H as [Hc Hp].
  pose proof (flags_le_options (positions pf)) as Hle.
  now rewrite Hc, Hp in Hle.
Qed.

Lemma has_straddle_strategy_two_options_witness :
  has_straddle_strategy p2 = true
  /\ (2 <= List.length (filter is_option (positions p2)))%nat.
Proof.
  assert (H : has_straddle_strategy p2 = true) by reflexivity.
  split; [exact H |].
  exact (has_straddle_strategy_two_options p2 H).
Defined.

(** ** The reports of [main] *)

Section ReportFacts.

(** A loop that appends the items selected from each element collects them
    in order. *)
Lemma fold_left_collect {A B : Type} (body : list B -> A -> list B)
    (select : A -> list B) :
  (forall out x, body out x = out ++ select x) ->
  forall (xs : list A) (out : list B),
    fold_left body xs out = out ++ flat_map select xs.
Proof.
  intros Hbody xs; induction xs as [| x xs IH]; intros out; cbn.
  - now rewrite app_nil_r.
  - now rewrite IH, Hbody, <- app_assoc.
Qed.

(** The same for the nested loop over the accounts and their positions. *)
Lemma nested_collect {B : Type}
    (body : ClientAccount -> list B -> Position -> list B)
    (select : ClientAccount -> Position -> list B) :
  (forall client out pos, body client out pos = out ++ select client pos) ->
  forall db : list ClientAccount,
    fold_left
      (fun out client =>
         match portfolio client with
         | Some pf => fold_left (body client) (positions pf) out
         | None => out
         end)
      db []
    = flat_map (fun client => flat_map (select client) (held_positions client))
               db.
Proof.
  intros Hbody db.
  rewrite fold_left_collect
    with (select := fun client =>
                      flat_map (select client) (held_positions client));
    [reflexivity |].
  intros out client; unfold held_positions.
  destruct (portfolio client) as [pf |]; cbn [flat_map].
  - now apply fold_left_collect.
  - now rewrite app_nil_r.
Qed.

Lemma dividend_opportunities_flat_map (db : list ClientAccount) :
  dividend_opportunities db
  = flat_map
      (fun client =>
         flat_map
           (fun pos =>
              match pos with
              | AStock s =>
                  if pays_dividends s
                  then [(ticker (stock_super s), iban client)] else []
              | _ => []
              end)
           (held_positions client))
      db.
Proof.
  unfold dividend_opportunities.
  apply (nested_collect
           (fun client printed pos =>
              match pos with
              | AStock s =>
                  if pays_dividends s
                  then printed ++ [(ticker (stock_super s), iban client)]
                  else printed
              | _ => printed
              end)).
  intros client out [s | d | o]; rewrite ?app_nil_r; try reflexivity.
  destruct (pays_dividends s); now rewrite ?app_nil_r.
Qed.

Lemma all_calls_flat_map (db : list ClientAccount) :
  all_calls db
  = flat_map
      (fun client =>
         flat_map
           (fun pos =>
              match pos with
              | AnOption o =>
                  if (option_type o =? "Call")%string then [o] else []
              | _ => []
              end)
           (held_positions client))
      db.
Proof.
  unfold all_calls.
  apply (nested_collect
           (fun (_ : ClientAccount) all_calls pos =>
              match pos with
              | AnOption o =>
                  if (option_type o =? "Call")%string
                  then all_calls ++ [o] else all_calls
              | _ => all_calls
              end)
           (fun _ pos =>
              match pos with
              | AnOption o =>
                  if (option_type o =? "Call")%string then [o] else []
              | _ => []
              end)).
  intros client out [s | d | o]; rewrite ?app_nil_r; try reflexivity.
  destruct (option_type o =? "Call")%string; now rewrite ?app_nil_r.
Qed.

Lemma pure_derivatives_flat_map (db : list ClientAccount) :
  pure_derivatives db
  = flat_map
      (fun client =>
         flat_map
           (fun pos =>
              match pos with
              | ADerivative d =>
                  if Rlt_dec 10 (multiplier d)
                  then [(ticker (derivative_super d), multiplier d)] else []
              | _ => []
              end)
           (held_positions client))
      db.
Proof.
  unfold pure_derivatives.
  apply (nested_collect
           (fun (_ : ClientAccount) printed pos =>
              match pos with
              | ADerivative d =>
                  if Rlt_dec 10 (multiplier d)
                  then printed
                       ++ [(ticker (derivative_super d), multiplier d)]
                  else printed
              | _ => printed
              end)
           (fun _ pos =>
              match pos with
              | ADerivative d =>
                  if Rlt_dec 10 (multiplier d)
                  then [(ticker (derivative_super d), multiplier d)] else []
              | _ => []
              end)).
  intros client out [s | d | o]; rewrite ?app_nil_r; try reflexivity.
  destruct (Rlt_dec 10 (multiplier d)); now rewrite ?app_nil_r.
Qed.

(** Where [max_loop] stops: every item before the winner has a strictly
    smaller key, every item after it a key that is not greater. *)
Lemma max_loop_split {A : Type} (key : A -> R) (items : list A) :
  forall maxitem : A,
    exists pre post : list A,
      maxitem :: items = pre ++ max_loop key maxitem items :: post
      /\ (forall x, In x pre -> key x < key (max_loop key maxitem items))
      /\ (forall x, In x post -> key x <= key (max_loop key maxitem items)).
Proof.
  induction items as [| item rest IH]; intros maxitem; cbn [max_loop].
  - exists [], []; repeat split; intros x [].
  - destruct (Rlt_dec (key maxitem) (key item)) as [Hlt | Hge].
    + destruct (IH item) as (pre & post & Heq & Hpre & Hpost).
      set (w := max_loop key item rest) in *.
      assert (Hitem : key item <= key w).
      { destruct pre as [| y pre']; cbn in Heq; injection Heq as Hy Hrest.
        - rewrite <- Hy; lra.
        - subst y; apply Rlt_le, Hpre; now left. }
      exists (maxitem :: pre), post; repeat split.
      * cbn; now rewrite Heq.
      * intros x [Hx | Hx]; [subst x; lra | now apply Hpre].
      * exact Hpost.
    + destruct (IH maxitem) as (pre & post & Heq & Hpre & Hpost).
      set (w := max_loop key maxitem rest) in *.
      destruct pre as [| y pre']; cbn in Heq; injection Heq as Hy Hrest.
      * exists [], (item :: post); repeat split.
        -- cbn; now rewrite <- Hy, Hrest.
        -- intros x [].
        -- intros x [Hx | Hx]; [subst x; rewrite <- Hy; lra | now apply Hpost].
      * subst y.
        assert (Hmax : key maxitem < key w) by (apply Hpre; now left).
        exists (maxitem :: item :: pre'), post; repeat split.
        -- cbn; now rewrite Hrest.
        -- intros x [Hx | [Hx | Hx]];
             [subst x; exact Hmax | subst x; lra | apply Hpre; now right].
        -- exact Hpost.
Qed.

End ReportFacts.

(** X13: Report 2 lists exactly the dividend-paying stocks held in the assigned
    portfolios, each with the account that holds it; derivatives, options and
    stocks that pay no dividend are never listed. *)
Theorem dividend_opportunities_In :
  forall (db : list ClientAccount) (t i : string),
    In (t, i) (dividend_opportunities db)
    <-> exists (client : ClientAccount) (s : Stock),
          In client db
          /\ In (AStock s) (held_positions client)
          /\ pays_dividends s = true
          /\ ticker (stock_super s) = t
          /\ iban client = i.
Proof.
  intros db t i; rewrite dividend_opportunities_flat_map, in_flat_map; split.
  - intros (client & Hc & Hin); apply in_flat_map in Hin as (pos & Hpos & Hin).
    destruct pos as [s | d | o]; try now destruct Hin.
    destruct (pays_dividends s) eqn:Hd; [| now destruct Hin].
    destruct Hin as [Heq | []]; injection Heq as Ht Hi.
    exists client, s; auto.
  - intros (client & s & Hc & Hpos & Hd & Ht & Hi).
    exists client; split; [exact Hc |].
    apply in_flat_map; exists (AStock s); split; [exact Hpos |].
    rewrite Hd, Ht, Hi; now left.
Qed.

(** X14: The list [all_calls] of report 3 holds exactly the options of type Call
    of the assigned portfolios. *)
Theorem all_calls_In :
  forall (db : list ClientAccount) (o : Option),
    In o (all_calls db)
    <-> option_type o = "Call"%string
        /\ exists client : ClientAccount,
             In client db /\ In (AnOption o) (held_positions client).
Proof.
  intros db o; rewrite all_calls_flat_map, in_flat_map; split.
  - intros (client & Hc & Hin); apply in_flat_map in Hin as (pos & Hpos & Hin).
    destruct pos as [s | d | o']; try now destruct Hin.
    destruct (option_type o' =? "Call")%string eqn:Hty; [| now destruct Hin].
    destruct Hin as [Heq | []]; subst o'.
    apply String.eqb_eq in Hty; eauto.
  - intros (Hty & client & Hc & Hpos).
    exists client; split; [exact Hc |].
    apply in_flat_map; exists (AnOption o); split; [exact Hpos |].
    apply String.eqb_eq in Hty; rewrite Hty; now left.
Qed.

(** X15: Report 3 never raises, although [max] raises on an empty list: the guard
    [if all_calls] keeps the empty list away from it, and the report falls
    back to "No Call options found" exactly when there is no call. *)
Theorem highest_strike_call_guarded :
  forall db : list ClientAccount,
    (exists answer : option Option,
       highest_strike_call db = Py.Return answer)
    /\ (highest_strike_call db = Py.Return None <-> all_calls db = [])
    /\ max_key strike_price (@nil Option) = Py.Raise Py.ValueError.
Proof.
  intros db; unfold highest_strike_call.
  destruct (all_calls db) as [| c cs]; cbn [max_key Py.bind].
  - repeat split; eauto.
  - repeat split; eauto; discriminate.
Qed.

(** X16: The call reported by report 3 is one of [all_calls], no call has a
    greater strike, and among calls of equal strike it is the first met:
    every call before it has a strictly smaller strike. *)
Theorem highest_strike_call_first_maximum :
  forall (db : list ClientAccount) (winner : Option),
    highest_strike_call db = Py.Return (Some winner) ->
    In winner (all_calls db)
    /\ (forall o : Option,
          In o (all_calls db) -> strike_price o <= strike_price winner)
    /\ exists before after : list Option,
         all_calls db = before ++ winner :: after
         /\ forall o : Option,
              In o before -> strike_price o < strike_price winner.
Proof.
  intros db winner; unfold highest_strike_call.
  destruct (all_calls db) as [| c cs]; [discriminate |].
  cbn [max_key Py.bind]; intros Hw; injection Hw as Hw.
  destruct (max_loop_split strike_price cs c)
    as (pre & post & Heq & Hpre & Hpost).
  rewrite Hw in Heq, Hpre, Hpost.
  rewrite Heq; repeat split.
  - apply in_or_app; right; now left.
  - intros o Ho; apply in_app_or in Ho as [Ho | [Ho | Ho]].
    + now apply Rlt_le, Hpre.
    + subst o; lra.
    + now apply Hpost.
  - exists pre, post; split; [reflexivity | exact Hpre].
Qed.

Lemma highest_strike_call_first_maximum_witness :
  highest_strike_call bank_database = Py.Return (Some call_amzn)
  /\ In call_amzn (all_calls bank_database)
  /\ (forall o : Option,
        In o (all_calls bank_database)
        -> strike_price o <= strike_price call_amzn).
Proof.
  assert (H : highest_strike_call bank_database = Py.Return (Some call_amzn)).
  { unfold highest_strike_call.
    change (all_calls bank_database) with [call_tsla; call_amzn].
    cbn [max_key max_loop Py.bind strike_price call_tsla call_amzn].
    destruct (Rlt_dec 250 3000) as [_ | NL]; [reflexivity | lra]. }
  split; [exact H |].
  destruct (highest_strike_call_first_maximum bank_database call_amzn H)
    as (Hin & Hmax & _).
  split; assumption.
Defined.

(** X17: Report 4 lists exactly the plain derivatives whose multiplier exceeds
    10: an option is never listed, whatever its multiplier, and neither is a
    derivative with multiplier 10 or less. *)
Theorem pure_derivatives_In :
  forall (db : list ClientAccount) (t : string) (m : R),
    In (t, m) (pure_derivatives db)
    <-> exists (client : ClientAccount) (d : Derivative),
          In client db
          /\ In (ADerivative d) (held_positions client)
          /\ 10 < multiplier d
          /\ ticker (derivative_super d) = t
          /\ multiplier d = m.
Proof.
  intros db t m; rewrite pure_derivatives_flat_map, in_flat_map; split.
  - intros (client & Hc & Hin); apply in_flat_map in Hin as (pos & Hpos & Hin).
    destruct pos as [s | d | o]; try now destruct Hin.
    destruct (Rlt_dec 10 (multiplier d)) as [Hm | Hm]; [| now destruct Hin].
    destruct Hin as [Heq | []]; injection Heq as Ht Hmul.
    exists client, d; auto.
  - intros (client & d & Hc & Hpos & Hm & Ht & Hmul).
    exists client; split; [exact Hc |].
    apply in_flat_map; exists (ADerivative d); split; [exact Hpos |].
    destruct (Rlt_dec 10 (multiplier d)) as [_ | NL]; [| contradiction].
    rewrite Ht, Hmul; now left.
Qed.

Section CountingFacts.

Lemma count_positions (ps : list Position) :
  forall td to : nat,
    fold_left
      (fun '(total_derivatives, total_options) pos =>
         let total_derivatives :=
           match pos with
           | ADerivative _ | AnOption _ => (total_derivatives + 1)%nat
           | AStock _ => total_derivatives
           end in
         let total_options :=
           match pos with
           | AnOption _ => (total_options + 1)%nat
           | _ => total_options
           end in
         (total_derivatives, total_options))
      ps (td, to)
    = ((td + List.length (filter is_derivative ps))%nat,
       (to + List.length (filter is_option ps))%nat).
Proof.
  induction ps as [| p ps IH]; intros td to; cbn [fold_left filter].
  - cbn; f_equal; lia.
  - rewrite IH; destruct p as [s | d | o]; cbn; f_equal; lia.
Qed.

Lemma count_accounts (db : list ClientAccount) :
  forall td to : nat,
    fold_left
      (fun counters client =>
         match portfolio client with
         | Some pf =>
             fold_left
               (fun '(total_derivatives, total_options) pos =>
                  let total_derivatives :=
                    match pos with
                    | ADerivative _ | AnOption _ =>
                        (total_derivatives + 1)%nat
                    | AStock _ => total_derivatives
                    end in
                  let total_options :=
                    match pos with
                    | AnOption _ => (total_options + 1)%nat
                    | _ => total_options
                    end in
                  (total_derivatives, total_options))
               (positions pf) counters
         | None => counters
         end)
      db (td, to)
    = ((td + List.length (filter is_derivative (flat_map held_positions db)))%nat,
       (to + List.length (filter is_option (flat_map held_positions db)))%nat).
Proof.
  induction db as [| client db IH]; intros td to; cbn [fold_left flat_map].
  - cbn; f_equal; lia.
  - rewrite !filter_app, !length_app; unfold held_positions at 1 3.
    destruct (portfolio client) as [pf |].
    + rewrite count_positions, IH; f_equal; lia.
    + rewrite IH; cbn; f_equal; lia.
Qed.

Lemma count_derivatives_lengths (db : list ClientAccount) :
  count_derivatives db
  = (List.length (filter is_derivative (flat_map held_positions db)),
     List.length (filter is_option (flat_map held_positions db))).
Proof. unfold count_derivatives; now rewrite count_accounts. Qed.

(** The derivatives are the options and the plain derivatives. *)
Lemma derivatives_split (ps : list Position) :
  List.length (filter is_derivative ps)
  = (List.length (filter is_option ps)
     + List.length (filter is_plain_derivative ps))%nat.
Proof.
  induction ps as [| p ps IH]; [reflexivity |].
  destruct p as [s | d | o]; cbn in *; lia.
Qed.

Lemma flat_map_held (B : Type) (select : ClientAccount -> Position -> list B)
    (bound : Position -> bool) (db : list ClientAccount) :
  (forall client pos,
     (List.length (select client pos) <= if bound pos then 1 else 0)%nat) ->
  (List.length
     (flat_map (fun client => flat_map (select client) (held_positions client))
               db)
   <= List.length (filter bound (flat_map held_positions db)))%nat.
Proof.
  intros Hsel.
  assert (Hone : forall client ps,
             (List.length (flat_map (select client) ps)
              <= List.length (filter bound ps))%nat).
  { intros client ps; induction ps as [| p ps IH]; [reflexivity |].
    cbn [flat_map filter]; rewrite length_app.
    specialize (Hsel client p).
    destruct (bound p); cbn [List.length]; lia. }
  induction db as [| client db IH]; [reflexivity |].
  cbn [flat_map]; rewrite filter_app, !length_app.
  specialize (Hone client (held_positions client)); lia.
Qed.

Lemma average_market_price_returns (pf : Portfolio) :
  exists avg : R, average_market_price pf = Py.Return avg.
Proof.
  destruct pf as [[| p ps]]; unfold average_market_price; cbn [positions].
  - eauto.
  - rewrite div_returns by (apply not_0_INR; discriminate); eauto.
Qed.

End CountingFacts.

(** X18: The counting loop of report 6 counts every option as a derivative too:
    [total_derivatives] is the number of derivatives and options held in the
    assigned portfolios, [total_options] the number of options, and they
    differ by the number of plain derivatives. *)
Theorem count_derivatives_counts :
  forall db : list ClientAccount,
    count_derivatives db
    = (List.length (filter is_derivative (flat_map held_positions db)),
       List.length (filter is_option (flat_map held_positions db)))
    /\ fst (count_derivatives db)
       = (snd (count_derivatives db)
          + List.length
              (filter is_plain_derivative (flat_map held_positions db)))%nat.
Proof.
  intros db; rewrite count_derivatives_lengths; split; [reflexivity |].
  apply derivatives_split.
Qed.

(** X19: Report 6 never raises: the ratio is skipped exactly when no derivative
    is held, so the division never sees a zero, and a printed ratio lies
    between 0 and 100. *)
Theorem hedging_ratio_bounds :
  forall db : list ClientAccount,
    exists answer : option R,
      hedging_ratio db = Py.Return answer
      /\ (answer = None
          <-> filter is_derivative (flat_map held_positions db) = [])
      /\ (forall ratio : R, answer = Some ratio -> 0 <= ratio <= 100).
Proof.
  intros db; unfold hedging_ratio.
  rewrite count_derivatives_lengths.
  pose proof (derivatives_split (flat_map held_positions db)) as Hsplit.
  set (td := List.length (filter is_derivative (flat_map held_positions db)))
    in *.
  set (to := List.length (filter is_option (flat_map held_positions db)))
    in *.
  destruct (0 <? td)%nat eqn:Htd.
  - apply Nat.ltb_lt in Htd.
    assert (Hpos : 0 < INR td) by now apply lt_0_INR.
    assert (Hle : INR to <= INR td) by (apply le_INR; lia).
    assert (H0 : 0 <= INR to) by apply pos_INR.
    rewrite div_returns by lra; cbn [Py.bind].
    eexists; split; [reflexivity |]; split.
    + split; [discriminate |].
      intros Hnil; apply (f_equal (@List.length Position)) in Hnil.
      fold td in Hnil; cbn in Hnil; lia.
    + intros ratio Hr; injection Hr as Hr; subst ratio.
      assert (Hq : 0 <= INR to / INR td <= 1).
      { split.
        - apply Rmult_le_reg_r with (INR td); [exact Hpos |].
          unfold Rdiv; rewrite Rmult_assoc, Rinv_l by lra; lra.
        - apply Rmult_le_reg_r with (INR td); [exact Hpos |].
          unfold Rdiv; rewrite Rmult_assoc, Rinv_l by lra; lra. }
      lra.
  - apply Nat.ltb_ge in Htd.
    exists None; split; [reflexivity |]; split.
    + split; [| reflexivity].
      intros _; apply length_zero_iff_nil; fold td; lia.
    + discriminate.
Qed.

(** X20: Reports 4 and 6 agree: the derivatives listed by report 4 and the
    options counted by report 6 together never exceed the derivatives
    counted by report 6. *)
Theorem pure_derivatives_counted :
  forall db : list ClientAccount,
    (List.length (pure_derivatives db) + snd (count_derivatives db)
     <= fst (count_derivatives db))%nat.
Proof.
  intros db.
  rewrite count_derivatives_lengths, pure_derivatives_flat_map; cbn [fst snd].
  rewrite (derivatives_split (flat_map held_positions db)).
  pose proof
    (flat_map_held (string * R)
       (fun _ pos =>
          match pos with
          | ADerivative d =>
              if Rlt_dec 10 (multiplier d)
              then [(ticker (derivative_super d), multiplier d)] else []
          | _ => []
          end)
       is_plain_derivative db) as Hle.
  cbv beta in Hle.
  assert (Hsel : forall (client : ClientAccount) (pos : Position),
             (List.length
                match pos with
                | ADerivative d =>
                    if Rlt_dec 10 (multiplier d)
                    then [(ticker (derivative_super d), multiplier d)] else []
                | _ => []
                end
              <= if is_plain_derivative pos then 1 else 0)%nat).
  { intros _ [s | d | o]; cbn; try lia.
    destruct (Rlt_dec 10 (multiplier d)); cbn; lia. }
  specialize (Hle Hsel); lia.
Qed.

(** X21: Report 8 alerts on exactly the accounts whose assigned portfolio holds
    an option of type Call and an option of type Put; an account without
    portfolio is never alerted on. *)
Theorem straddle_alerts_In :
  forall (db : list ClientAccount) (i : string),
    In i (straddle_alerts db)
    <-> exists (client : ClientAccount) (pf : Portfolio),
          In client db
          /\ iban client = i
          /\ portfolio client = Some pf
          /\ holds_option_of_type pf "Call"
          /\ holds_option_of_type pf "Put".
Proof.
  intros db i; unfold straddle_alerts.
  rewrite fold_left_collect
    with (select := fun client =>
                      match portfolio client with
                      | Some pf =>
                          if has_straddle_strategy pf then [iban client]
                          else []
                      | None => []
                      end).
  2:{ intros out client; destruct (portfolio client) as [pf |];
        [destruct (has_straddle_strategy pf) |]; now rewrite ?app_nil_r. }
  cbn [app]; rewrite in_flat_map; split.
  - intros (client & Hc & Hin).
    destruct (portfolio client) as [pf |] eqn:Hpf; [| now destruct Hin].
    destruct (has_straddle_strategy pf) eqn:Hs; [| now destruct Hin].
    destruct Hin as [Hi | []].
    rewrite has_straddle_strategy_existsb in Hs.
    apply andb_true_iff in Hs as [Hcall Hput].
    apply existsb_option_of_type in Hcall, Hput.
    exists client, pf; auto.
  - intros (client & pf & Hc & Hi & Hpf & Hcall & Hput).
    exists client; split; [exact Hc |].
    apply existsb_option_of_type in Hcall, Hput.
    rewrite Hpf, has_straddle_strategy_existsb, Hcall, Hput; now left.
Qed.

(** X22: Reports 5 and 7 split the accounts: report 7 never raises, an empty
    portfolio included, and every account is either given an average by
    report 7 or listed as inactive by report 5. *)
Theorem average_prices_inactive_accounts :
  forall db : list ClientAccount,
    exists lines : list (string * R),
      average_prices db = Py.Return lines
      /\ (List.length lines + List.length (inactive_accounts db)
          = List.length db)%nat.
Proof.
  intros db; unfold average_prices, inactive_accounts.
  rewrite fold_left_collect
    with (select := fun client =>
                      match portfolio client with
                      | None => [iban client]
                      | Some _ => []
                      end).
  2:{ intros out client; destruct (portfolio client); now rewrite ?app_nil_r. }
  cbn [app].
  enough (Hgen : forall acc : list (string * R),
             exists lines : list (string * R),
               for_each
                 (fun printed client =>
                    match portfolio client with
                    | Some pf =>
                        avg <- average_market_price pf ;;
                        Py.Return (printed ++ [(iban client, avg)])
                    | None => Py.Return printed
                    end)
                 db acc
               = Py.Return (acc ++ lines)
               /\ (List.length lines
                   + List.length
                       (flat_map
                          (fun client =>
                             match portfolio client with
                             | None => [iban client]
                             | Some _ => []
                             end) db)
                   = List.length db)%nat).
  { destruct (Hgen []) as (lines & Hrun & Hlen); exists lines; auto. }
  induction db as [| client db IH]; intros acc; cbn [for_each flat_map].
  - exists []; now rewrite app_nil_r.
  - destruct (portfolio client) as [pf |]; cbn [Py.bind].
    + destruct (average_market_price_returns pf) as [avg Havg].
      rewrite Havg; cbn [Py.bind].
      destruct (IH (acc ++ [(iban client, avg)])) as (lines & Hrun & Hlen).
      exists ((iban client, avg) :: lines); split.
      * rewrite Hrun, <- app_assoc; reflexivity.
      * cbn [app List.length] in *; lia.
    + destruct (IH acc) as (lines & Hrun & Hlen).
      exists lines; split; [exact Hrun |].
      cbn [app List.length] in *; lia.
Qed.


(** ** The pricing method in double precision *)

Module DoubleSpec.

Import Floats Double.
#[local] Open Scope float_scope.
#[local] Set Warnings "-inexact-float".

(** *** Comparisons with zero *)

Lemma positive_not_le (x : float) : (0 <? x) = true -> (x <=? 0) = false.
Proof.
  rewrite ltb_spec, leb_spec.
  change (Prim2SF 0) with (S754_zero false).
  destruct (Prim2SF x) as [s | s | | s m e]; try destruct s; cbn; congruence.
Qed.

Lemma positive_not_lt (x : float) : (0 <? x) = true -> (x <? 0) = false.
Proof.
  rewrite !ltb_spec.
  change (Prim2SF 0) with (S754_zero false).
  destruct (Prim2SF x) as [s | s | | s m e]; try destruct s; cbn; congruence.
Qed.

Lemma positive_not_zero (x : float) : (0 <? x) = true -> (x =? 0) = false.
Proof.
  rewrite ltb_spec, FloatAxioms.eqb_spec.
  change (Prim2SF 0) with (S754_zero false).
  destruct (Prim2SF x) as [s | s | | s m e]; try destruct s; cbn; congruence.
Qed.

Lemma positive_not_nan (x : float) : (0 <? x) = true -> is_nan x = false.
Proof.
  unfold is_nan; rewrite ltb_spec, FloatAxioms.eqb_spec.
  change (Prim2SF 0) with (S754_zero false).
  destruct (Prim2SF x) as [s | s | | s m e]; try destruct s; cbn;
    try congruence.
  intros _; unfold SFeqb, SFcompare.
  now rewrite Z.compare_refl, Pos.compare_refl.
Qed.

(** The product of zero and a finite number is a zero. *)
Lemma zero_mul_finite (m : float) :
  is_finite m = true -> (0 * m =? 0) = true.
Proof.
  unfold is_finite; intros H.
  apply negb_true_iff, orb_false_iff in H as [Hnan Hinf].
  rewrite FloatAxioms.eqb_spec, mul_spec.
  change (Prim2SF 0) with (S754_zero false).
  unfold Prim2SF at 1; rewrite Hnan, Hinf.
  destruct (is_zero m); [reflexivity |].
  destruct (Z.frexp m) as [fr e].
  destruct (shr_fexp prec emax (Uint63Axioms.to_Z (normfr_mantissa fr))
              (IntDef.Z.sub e prec) loc_Exact) as [shr e'].
  destruct (shr_m shr); reflexivity.
Qed.

(** *** The steps of the method *)

(** [N] never raises: its divisors are the constants [sqrt 2] and 2. *)
Lemma N_is_formula (libm : Libm) (x : float) :
  N libm x = Return (N_formula libm x).
Proof. reflexivity. Qed.

Lemma d1_d2_returns (libm : Libm) (self : Option) (r sigma T : float) :
  (0 <? T) = true ->
  (strike_price self =? 0) = false ->
  (0 <? market_price self / strike_price self) = true ->
  (is_infinity (pow libm sigma 2) && is_finite sigma) = false ->
  (sigma * sqrt T =? 0) = false ->
  d1_d2 libm self r sigma T
  = Return (d1_formula libm (market_price self) (strike_price self) r sigma T,
            d2_formula libm (market_price self) (strike_price self) r sigma T).
Proof.
  intros HT HK Hq Hpow Hden.
  unfold d1_d2, float_div, math_log, float_pow_2, math_sqrt.
  rewrite HK; cbn [bind].
  rewrite (positive_not_nan _ Hq), Hq; cbn [bind].
  rewrite Hpow; cbn [bind].
  rewrite (positive_not_lt _ HT); cbn [bind].
  rewrite Hden; cbn [bind].
  reflexivity.
Qed.

(** *** Specification *)

(** C1 as stated fails in double precision: for a call with market price
    [1e-200] and strike [1e200], both positive, and the positive volatility
    and time to maturity of the demo, the quotient [S / K] underflows to 0
    and [math.log] raises, whatever the C library computes. *)
Lemma underflow_raises :
  (0 <? market_price call_tiny) = true
  /\ (0 <? strike_price call_tiny) = true
  /\ (0 <? 0.25) = true
  /\ (0 <? 0.5) = true
  /\ option_type call_tiny = "Call"%string
  /\ (market_price call_tiny / strike_price call_tiny =? 0) = true
  /\ (forall libm : Libm,
        theoretical_value_bs libm call_tiny 0.04 0.25 0.5 = Raise ValueError)
  /\ ~ (exists (libm : Libm) (v : float),
          theoretical_value_bs libm call_tiny 0.04 0.25 0.5 = Return v).
Proof.
  assert (E : forall libm : Libm,
             theoretical_value_bs libm call_tiny 0.04 0.25 0.5
             = Raise ValueError) by (intros libm; reflexivity).
  repeat split; try reflexivity; try exact E.
  intros (libm & v & Hv); rewrite E in Hv; discriminate Hv.
Qed.

(** C1, amended: on a positive strike and a positive time to maturity, when
    in double precision the quotient [S / K] is positive, [sigma ** 2] and
    [exp(-r * T)] do not overflow and [sigma * sqrt(T)] is not zero,
    [theoretical_value_bs] returns the step-4 price times the multiplier:
    [S N(d1) - K e^(-rT) N(d2)] for a Call and
    [K e^(-rT) N(-d2) - S N(-d1)] for a Put, with
    [d1 = (ln(S/K) + (r + sigma^2/2) T) / (sigma sqrt(T))],
    [d2 = d1 - sigma sqrt(T)] and [N(x) = (1 + erf(x / sqrt 2)) / 2]. *)
Theorem theoretical_value_bs_black_scholes :
  forall (libm : Libm) (self : Option) (r sigma T : float),
    (0 <? strike_price self) = true ->
    (0 <? T) = true ->
    (0 <? market_price self / strike_price self) = true ->
    (is_infinity (pow libm sigma 2) && is_finite sigma) = false ->
    (sigma * sqrt T =? 0) = false ->
    (is_infinity (exp libm (- r * T)) && is_finite (- r * T)) = false ->
    (option_type self = "Call"%string ->
     theoretical_value_bs libm self r sigma T
     = Return (call_price libm (market_price self) (strike_price self)
                 r sigma T
               * multiplier self))
    /\ (option_type self = "Put"%string ->
        theoretical_value_bs libm self r sigma T
        = Return (put_price libm (market_price self) (strike_price self)
                    r sigma T
                  * multiplier self)).
Proof.
  intros libm self r sigma T HK HT Hq Hpow Hden Hexp.
  assert (Hd := d1_d2_returns libm self r sigma T HT
                  (positive_not_zero _ HK) Hq Hpow Hden).
  unfold theoretical_value_bs.
  rewrite (positive_not_le _ HT), Hd; cbn [bind fst snd].
  split; intros Hty; unfold step_4, math_exp; rewrite Hty;
    cbn [String.eqb Ascii.eqb Bool.eqb andb];
    rewrite Hexp, !N_is_formula; reflexivity.
Qed.

Lemma theoretical_value_bs_black_scholes_witness :
  theoretical_value_bs series_libm call_amzn 0.04 0.25 0.5
  = Return (call_price series_libm 5 3000 0.04 0.25 0.5 * 100)
  /\ theoretical_value_bs series_libm put_tsla 0.04 0.25 0.5
     = Return (put_price series_libm 18 200 0.04 0.25 0.5 * 100).
Proof.
  split.
  - apply (theoretical_value_bs_black_scholes
             series_libm call_amzn 0.04 0.25 0.5); reflexivity.
  - apply (theoretical_value_bs_black_scholes
             series_libm put_tsla 0.04 0.25 0.5); reflexivity.
Defined.

(** C3: for an option whose type is neither Call nor Put and a positive
    time to maturity, once [d1] and [d2] are computed, so that step 4 is
    reached, no branch matches: the price of step 4 is 0 and the method
    returns it scaled by the multiplier, which is zero for every finite
    multiplier; nothing is raised. *)
Theorem theoretical_value_bs_unknown_type :
  forall (libm : Libm) (self : Option) (r sigma T : float)
         (d : float * float),
    option_type self <> "Call"%string ->
    option_type self <> "Put"%string ->
    (0 <? T) = true ->
    d1_d2 libm self r sigma T = Return d ->
    step_4 libm self r T (fst d) (snd d) = Return 0
    /\ theoretical_value_bs libm self r sigma T
       = Return (0 * multiplier self)
    /\ (is_finite (multiplier self) = true ->
        (0 * multiplier self =? 0) = true).
Proof.
  intros libm self r sigma T d Hcall Hput HT Hd.
  apply String.eqb_neq in Hcall, Hput.
  assert (H4 : step_4 libm self r T (fst d) (snd d) = Return 0)
    by (unfold step_4; now rewrite Hcall, Hput).
  repeat split.
  - exact H4.
  - unfold theoretical_value_bs.
    now rewrite (positive_not_le _ HT), Hd; cbn [bind]; rewrite H4.
  - apply zero_mul_finite.
Qed.

Lemma theoretical_value_bs_unknown_type_witness :
  exists d : float * float,
    d1_d2 series_libm binary_tsla 0.04 0.25 0.5 = Return d
    /\ theoretical_value_bs series_libm binary_tsla 0.04 0.25 0.5
       = Return (0 * 100)
    /\ (0 * multiplier binary_tsla =? 0) = true.
Proof.
  eexists; split; [vm_compute; reflexivity |].
  assert (Hcall : option_type binary_tsla <> "Call"%string)
    by (apply String.eqb_neq; reflexivity).
  assert (Hput : option_type binary_tsla <> "Put"%string)
    by (apply String.eqb_neq; reflexivity).
  assert (HT : (0 <? 0.5) = true) by reflexivity.
  destruct (theoretical_value_bs_unknown_type
              series_libm binary_tsla 0.04 0.25 0.5 _ Hcall Hput HT
              (ltac:(vm_compute; reflexivity)))
    as (_ & Hv & Hz).
  split; [exact Hv | apply Hz; reflexivity].
Defined.

(** *** Error behaviour *)

Ltac run_pricing HT :=
  unfold theoretical_value_bs, d1_d2, step_4, float_div, math_log,
    float_pow_2, math_sqrt, math_exp;
  rewrite (positive_not_le _ HT), ?(positive_not_lt _ HT).

(** X1: with a positive time to maturity the method returns exactly when
    the strike is not zero, the quotient [S / K] computed in double
    precision is positive or a NaN, [sigma ** 2] does not overflow,
    [sigma * sqrt(T)] is not zero and, for a Call or a Put,
    [exp(-r * T)] does not overflow; the multiplier plays no part. *)
Theorem theoretical_value_bs_returns_iff :
  forall (libm : Libm) (self : Option) (r sigma T : float),
    (0 <? T) = true ->
    (exists v : float, theoretical_value_bs libm self r sigma T = Return v)
    <-> (strike_price self =? 0) = false
        /\ (is_nan (market_price self / strike_price self)
            || (0 <? market_price self / strike_price self)) = true
        /\ (is_infinity (pow libm sigma 2) && is_finite sigma) = false
        /\ (sigma * sqrt T =? 0) = false
        /\ (((option_type self =? "Call")%string
             || (option_type self =? "Put")%string)
            && (is_infinity (exp libm (- r * T)) && is_finite (- r * T)))
           = false.
Proof.
  intros libm self r sigma T HT; run_pricing HT.
  destruct (strike_price self =? 0); cbn [bind].
  { split; [intros [v Hv]; discriminate Hv | intros (H & _); discriminate H]. }
  destruct (is_nan (market_price self / strike_price self)) eqn:Hnan;
    [| destruct (0 <? market_price self / strike_price self) eqn:Hq];
    cbn [bind orb].
  3:{ split; [intros [v Hv]; discriminate Hv |].
      intros (_ & H & _); discriminate H. }
  all: destruct (is_infinity (pow libm sigma 2) && is_finite sigma);
    cbn [bind];
    [split; [intros [v Hv]; discriminate Hv
            | intros (_ & _ & H & _); discriminate H] |].
  all: destruct (sigma * sqrt T =? 0); cbn [bind];
    [split; [intros [v Hv]; discriminate Hv
            | intros (_ & _ & _ & H & _); discriminate H] |].
  all: destruct (option_type self =? "Call")%string;
    [| destruct (option_type self =? "Put")%string];
    cbn [bind fst snd orb andb]; rewrite ?N_is_formula; cbn [bind];
    try (destruct (is_infinity (exp libm (- r * T)) && is_finite (- r * T));
         cbn [bind]; rewrite ?N_is_formula; cbn [bind]).
  all: split;
    [ intros [v Hv]; try discriminate Hv; repeat split; reflexivity
    | intros (_ & _ & _ & _ & H); try discriminate H; eauto ].
Qed.

Lemma theoretical_value_bs_returns_iff_witness :
  (0 <? 0.5) = true
  /\ exists v : float,
       theoretical_value_bs series_libm call_amzn 0.04 0.25 0.5 = Return v.
Proof.
  assert (HT : (0 <? 0.5) = true) by reflexivity.
  split; [exact HT |].
  apply (proj2 (theoretical_value_bs_returns_iff
                  series_libm call_amzn 0.04 0.25 0.5 HT)).
  repeat split; reflexivity.
Defined.

(** X2: the exceptions of the method, in the order its operations run, with
    a positive time to maturity: a zero strike raises [ZeroDivisionError];
    then a quotient [S / K] that is neither positive nor a NaN, an underflow
    to 0 included, raises [ValueError]; then an overflow of [sigma ** 2]
    raises [OverflowError]; then a product [sigma * sqrt(T)] equal to zero
    raises [ZeroDivisionError]. *)
Theorem theoretical_value_bs_exceptions :
  forall (libm : Libm) (self : Option) (r sigma T : float),
    (0 <? T) = true ->
    ((strike_price self =? 0) = true ->
     theoretical_value_bs libm self r sigma T = Raise ZeroDivisionError)
    /\ ((strike_price self =? 0) = false ->
        (is_nan (market_price self / strike_price self)
         || (0 <? market_price self / strike_price self)) = false ->
        theoretical_value_bs libm self r sigma T = Raise ValueError)
    /\ ((strike_price self =? 0) = false ->
        (is_nan (market_price self / strike_price self)
         || (0 <? market_price self / strike_price self)) = true ->
        (is_infinity (pow libm sigma 2) && is_finite sigma) = true ->
        theoretical_value_bs libm self r sigma T = Raise OverflowError)
    /\ ((strike_price self =? 0) = false ->
        (is_nan (market_price self / strike_price self)
         || (0 <? market_price self / strike_price self)) = true ->
        (is_infinity (pow libm sigma 2) && is_finite sigma) = false ->
        (sigma * sqrt T =? 0) = true ->
        theoretical_value_bs libm self r sigma T = Raise ZeroDivisionError).
Proof.
  intros libm self r sigma T HT; run_pricing HT.
  repeat split.
  - intros HK; now rewrite HK.
  - intros HK Hq; rewrite HK; cbn [bind].
    apply orb_false_iff in Hq as [Hnan Hq]; now rewrite Hnan, Hq.
  - intros HK Hq Hpow; rewrite HK; cbn [bind].
    destruct (is_nan (market_price self / strike_price self));
      [| cbn [orb] in Hq; rewrite Hq]; cbn [bind]; now rewrite Hpow.
  - intros HK Hq Hpow Hden; rewrite HK; cbn [bind].
    destruct (is_nan (market_price self / strike_price self));
      [| cbn [orb] in Hq; rewrite Hq]; cbn [bind]; rewrite Hpow; cbn [bind];
      now rewrite Hden.
Qed.

Lemma theoretical_value_bs_exceptions_witness :
  theoretical_value_bs series_libm
    (mkOption "PUT-TSLA" 10 18 "2026-06" 100 0 "Put") 0.04 0.25 0.5
  = Raise ZeroDivisionError
  /\ theoretical_value_bs series_libm call_tiny 0.04 0.25 0.5
     = Raise ValueError
  /\ theoretical_value_bs series_libm binary_tsla 0.04 1e200 0.5
     = Raise OverflowError
  /\ theoretical_value_bs series_libm call_amzn 0.04 0 0.5
     = Raise ZeroDivisionError.
Proof.
  assert (HT : (0 <? 0.5) = true) by reflexivity.
  split; [| split; [| split]].
  - apply (proj1 (theoretical_value_bs_exceptions series_libm
                    (mkOption "PUT-TSLA" 10 18 "2026-06" 100 0 "Put")
                    0.04 0.25 0.5 HT)); reflexivity.
  - apply (proj1 (proj2 (theoretical_value_bs_exceptions series_libm
                           call_tiny 0.04 0.25 0.5 HT))); reflexivity.
  - apply (proj1 (proj2 (proj2 (theoretical_value_bs_exceptions series_libm
                                  binary_tsla 0.04 1e200 0.5 HT))));
      reflexivity.
  - apply (proj2 (proj2 (proj2 (theoretical_value_bs_exceptions series_libm
                                  call_amzn 0.04 0 0.5 HT))));
      reflexivity.
Defined.

End DoubleSpec.
